(** * PennyLane: [collections/sum.py] and [templates/embeddings/angle.py]

    A shallow embedding of the two helpers and the properties of their
    behaviour.  Python code that queues operations or evaluates QNodes is
    written in a small monad [Run] that records the events emitted so far
    together with the outcome (a returned value or a raised exception).
    Events emitted before an exception is raised stay recorded, as queuing
    in Python is not undone by a later [raise]. *)

From Stdlib Require Import List String Ascii ZArith QArith Bool Arith Lia.
From Stdlib Require Import Decimal DecimalString.
Import ListNotations.

Local Open Scope string_scope.
Local Open Scope list_scope.

Set Implicit Arguments.

(** ** Python values, exceptions and outcomes *)

(** The fragment of Python values that reaches the [interface] and
    [rotation] arguments: [None], booleans, integers and strings. *)
Inductive pyval : Type :=
| PyNone
| PyBool (b : bool)
| PyInt (z : Z)
| PyStr (s : string).

(** Builtin classes used with [isinstance]. *)
Inductive pytype : Type := NoneType | bool_t | int_t | str.

(** [isinstance(v, t)]; [bool] is a subclass of [int]. *)
Definition isinstance (v : pyval) (t : pytype) : bool :=
  match v, t with
  | PyNone, NoneType => true
  | PyBool _, bool_t => true
  | PyBool _, int_t => true
  | PyInt _, int_t => true
  | PyStr _, str => true
  | _, _ => false
  end.

(** Python's [==] on these values; [True == 1] and [False == 0] hold. *)
Definition py_eq (a b : pyval) : bool :=
  match a, b with
  | PyNone, PyNone => true
  | PyBool x, PyBool y => Bool.eqb x y
  | PyBool x, PyInt y => Z.eqb (Z.b2z x) y
  | PyInt x, PyBool y => Z.eqb x (Z.b2z y)
  | PyInt x, PyInt y => Z.eqb x y
  | PyStr x, PyStr y => String.eqb x y
  | _, _ => false
  end.

(** [x in options]. *)
Definition py_in (x : pyval) (options : list pyval) : bool :=
  existsb (py_eq x) options.

(** [x is None]. *)
Definition is_None (x : pyval) : bool :=
  match x with PyNone => true | _ => false end.

(** Decimal rendering of [len(...)] and of integers. *)
Definition str_nat (n : nat) : string := NilZero.string_of_uint (Nat.to_uint n).
Definition str_Z (z : Z) : string := NilZero.string_of_int (Z.to_int z).

(** What ["{}".format(v)] inserts for [v]. *)
Definition py_str (v : pyval) : string :=
  match v with
  | PyNone => "None"
  | PyBool true => "True"
  | PyBool false => "False"
  | PyInt z => str_Z z
  | PyStr s => s
  end.

(** [str(t)] of a tuple of non-negative integers (a shape). *)
Fixpoint join_comma (l : list nat) : string :=
  match l with
  | [] => ""
  | [n] => str_nat n
  | n :: rest => str_nat n ++ ", " ++ join_comma rest
  end.

Definition str_shape (shape : list nat) : string :=
  match shape with
  | [n] => "(" ++ str_nat n ++ ",)"
  | _ => "(" ++ join_comma shape ++ ")"
  end.

(** [needle in hay] for strings: substring test. *)
Fixpoint str_contains (needle hay : string) : bool :=
  if String.prefix needle hay then true
  else match hay with
       | EmptyString => false
       | String _ rest => str_contains needle rest
       end.

(** Exception classes.  [OtherError] stands for any class that is not
    [ValueError] (nor one of its subclasses). *)
Inductive exc_class : Type :=
| ValueError
| TypeError
| AttributeError
| OtherError (name : string).

Definition is_ValueError (c : exc_class) : bool :=
  match c with ValueError => true | _ => false end.

(** An exception object: its class and [str(e)]. *)
Record exception : Type := Exc { exc_type : exc_class; exc_str : string }.

Inductive outcome (A : Type) : Type :=
| Returned (a : A)
| Raised (e : exception).
Arguments Returned {A} a.
Arguments Raised {A} e.

(** ** The [Run] monad: emitted events and outcome *)

Definition Run (E A : Type) : Type := (list E * outcome A)%type.

Definition ret {E A} (a : A) : Run E A := ([], Returned a).

Definition raise {E A} (e : exception) : Run E A := ([], Raised e).

Definition emit {E} (ev : E) : Run E unit := ([ev], Returned tt).

Definition bind {E A B} (m : Run E A) (k : A -> Run E B) : Run E B :=
  match m with
  | (tr, Returned a) => let (tr', o) := k a in (tr ++ tr', o)
  | (tr, Raised e) => (tr, Raised e)
  end.

(** [try: m except <class> as e: handler e]; an exception the clause does
    not catch passes through. *)
Definition try_except {E A} (m : Run E A) (catches : exc_class -> bool)
           (handler : exception -> Run E A) : Run E A :=
  match m with
  | (tr, Raised e) =>
      if catches (exc_type e)
      then let (tr', o) := handler e in (tr ++ tr', o)
      else (tr, Raised e)
  | done => done
  end.

(** A pure computation that may raise, run inside [Run]. *)
Definition lift {E A} (o : outcome A) : Run E A := ([], o).

Definition events {E A} (m : Run E A) : list E := fst m.
Definition result {E A} (m : Run E A) : outcome A := snd m.

Declare Scope run_scope.
Delimit Scope run_scope with run.
Notation "x <- m ;; k" := (bind m (fun x => k))
  (at level 61, m at next level, right associativity) : run_scope.
Notation "m ;; k" := (bind m (fun _ => k))
  (at level 61, right associativity) : run_scope.
Local Open Scope run_scope.

(** [for x in xs: body x] *)
Fixpoint for_each {E A} (xs : list A) (body : A -> Run E unit) : Run E unit :=
  match xs with
  | [] => ret tt
  | x :: rest => body x ;; for_each rest body
  end.

(** ** [collections/sum.py] *)

(** The summation primitives of the numeric backends. *)
Inductive sum_func : Type :=
| tf_reduce_sum         (* tensorflow.reduce_sum *)
| torch_sum             (* torch.sum *)
| autograd_numpy_sum    (* autograd.numpy.sum *)
| numpy_sum.            (* numpy.sum *)

(** [_get_sum_func(interface)]; each [import] binds the backend module whose
    primitive is returned. *)
Definition _get_sum_func (interface : pyval) : outcome sum_func :=
  if py_eq interface (PyStr "tf") then Returned tf_reduce_sum
  else if py_eq interface (PyStr "torch") then Returned torch_sum
  else if py_in interface [PyStr "autograd"; PyStr "numpy"]
       then Returned autograd_numpy_sum
  else if is_None interface then Returned numpy_sum
  else Raised (Exc ValueError ("Unknown interface " ++ py_str interface)).

Section Collections.

(** Parameters handed to the QNodes, their results, and the action of a
    backend's summation primitive on a sequence of results. *)
Variables params value : Type.
Variable call_sum : sum_func -> list value -> value.

(** The event recorded when the unit at position [index] is evaluated. *)
Inductive evaluation : Type := Evaluated (index : nat) (p : params).

(** A collection object: its class name, its [interface] attribute when the
    object has one, and its computation units. *)
Record QNodeCollection : Type := {
  class_name : string;
  interface_attr : option pyval;
  qnodes : list (params -> value)
}.

(** [getattr(x, "interface", default)] *)
Definition getattr_interface (x : QNodeCollection) (default : pyval) : pyval :=
  match interface_attr x with
  | Some v => v
  | None => default
  end.

(** [x.interface] *)
Definition dot_interface (x : QNodeCollection) : outcome pyval :=
  match interface_attr x with
  | Some v => Returned v
  | None =>
      Raised (Exc AttributeError
                  ("'" ++ class_name x ++ "' object has no attribute 'interface'"))
  end.

(** Evaluation of the units from position [i] on, in order. *)
Fixpoint eval_from (i : nat) (qs : list (params -> value)) (p : params)
  : Run evaluation (list value) :=
  match qs with
  | [] => ret []
  | q :: rest =>
      emit (Evaluated i p) ;;
      vs <- eval_from (S i) rest p ;;
      ret (q p :: vs)
  end.

(** Modelled from the spec: calling the collection, [x(params)]
    (QNodeCollection.__call__ is not among the sources): evaluates each
    computation unit with the shared parameters, one result per unit, order
    preserved. *)
Definition call_collection (x : QNodeCollection) (p : params)
  : Run evaluation (list value) :=
  eval_from 0 (qnodes x) p.

(** Modelled from the spec: [apply(func, qnode_collection)] of
    [collections/apply.py], which is not among the sources: returns a
    function of the parameters that, when called, evaluates the collection
    with them and applies [func] to the resulting sequence. *)
Definition apply (func : sum_func) (x : QNodeCollection)
  : params -> Run evaluation value :=
  fun p => results <- call_collection x p ;; ret (call_sum func results).

(** [sum(x)] *)
Definition sum (x : QNodeCollection)
  : Run evaluation (params -> Run evaluation value) :=
  let interface := getattr_interface x PyNone in
  x_interface <- lift (dot_interface x) ;;
  sum_fn <- lift (_get_sum_func x_interface) ;;
  ret (apply sum_fn x).



End Collections.

(** ** [templates/embeddings/angle.py] *)

(** Wire identifiers are numbers or strings. *)
Inductive wire_id : Type :=
| WInt (n : Z)
| WStr (s : string).

Definition wire_eqb (a b : wire_id) : bool :=
  match a, b with
  | WInt x, WInt y => Z.eqb x y
  | WStr x, WStr y => String.eqb x y
  | _, _ => false
  end.

(** The wire identifiers of a sequence are pairwise distinct. *)
Fixpoint unique (ws : list wire_id) : bool :=
  match ws with
  | [] => true
  | w :: rest => negb (existsb (wire_eqb w) rest) && unique rest
  end.

(** Modelled from the spec: [Wires(wires)] of [pennylane/wires.py], which is
    not among the sources: normalises an iterable of unique identifiers into
    the canonical ordered sequence; the order given is the canonical one.
    Sequences with a repeated identifier are outside the data model, and the
    properties below are stated for [unique] sequences. *)
Definition Wires (wires : list wire_id) : list wire_id := wires.

(** The rotation gate classes of [pennylane.ops]. *)
Inductive Gate : Type := RX | RY | RZ.

(** A queued single-qubit rotation: [gate(angle, wires=wire)].  Angles are
    handed through unchanged, no arithmetic is done on them, and they are
    represented by rationals. *)
Record Operation : Type := Op { gate : Gate; angle : Q; wire : wire_id }.

(** Instantiating a gate class queues the operation. *)
Definition construct (unitary : Gate) (par : Q) (w : wire_id) : Run Operation unit :=
  emit (Op unitary par w).

(** Broadcast patterns; [AngleEmbedding] only uses ["single"]. *)
Inductive Pattern : Type := single.

(** Modelled from the spec: [get_shape] of [templates/utils.py], which is
    not among the sources: the shape of a feature vector, a 1-D sequence of
    scalars, is [(N,)]. *)
Definition get_shape (inpt : list Q) : list nat := [List.length inpt].

(** A shape is within a maximal shape: 1-D and no longer than the bound. *)
Definition within_max (shape target_shape : list nat) : bool :=
  match shape, target_shape with
  | [N], [n] => Nat.leb N n
  | _, _ => false
  end.

(** Modelled from the spec: [check_shape(inpt, target_shape, bound="max",
    msg)] of [templates/utils.py], which is not among the sources: the input
    must be a 1-D sequence of length at most the bound, otherwise a
    ShapeError, a [ValueError] carrying [msg], is raised.  Returns the
    shape. *)
Definition check_shape (inpt : list Q) (target_shape : list nat) (msg : string)
  : Run Operation (list nat) :=
  let shape := get_shape inpt in
  if within_max shape target_shape then ret shape
  else raise (Exc ValueError msg).

(** Modelled from the spec: [check_type(element, types, msg)] of
    [templates/utils.py], which is not among the sources: the element must
    be an instance of one of the types, otherwise a [TypeError] carrying
    [msg] is raised. *)
Definition check_type (element : pyval) (types : list pytype) (msg : string)
  : Run Operation unit :=
  if existsb (isinstance element) types then ret tt
  else raise (Exc TypeError msg).

(** Modelled from the spec: [check_is_in_options(element, options, msg)] of
    [templates/utils.py], which is not among the sources: the element must
    be one of the options, otherwise an InvalidOptionError, a [ValueError]
    carrying [msg], is raised. *)
Definition check_is_in_options (element : pyval) (options : list pyval)
           (msg : string) : Run Operation unit :=
  if py_in element options then ret tt
  else raise (Exc ValueError msg).

Definition broadcast_t : Type :=
  Gate -> Pattern -> list wire_id -> list Q -> Run Operation unit.

Section Angle.

(** The broadcast primitive of [pennylane.templates], called with keyword
    arguments [unitary], [pattern], [wires] and [parameters]. *)
Variable broadcast : broadcast_t.

(** [_broadcast_no_shape_check(unitary, pattern, wires, parameters)] *)
Definition _broadcast_no_shape_check (unitary : Gate) (pattern : Pattern)
           (wires : list wire_id) (parameters : list Q) : Run Operation unit :=
  try_except
    (broadcast unitary pattern wires parameters)
    is_ValueError
    (fun e =>
       let msg := ("must contain entries for " ++ str_nat (List.length wires)
                   ++ " unitaries")%string in
       if negb (str_contains msg (exc_str e)) then raise e
       else ret tt).

(** [AngleEmbedding(features, wires, rotation="X")]; [rotation = None]
    stands for a call that omits the argument.  The [template] decorator
    makes the call return the operations queued by the body: they are the
    events of the run. *)
Definition AngleEmbedding (features : list Q) (wires : list wire_id)
           (rotation : option pyval) : Run Operation unit :=
  let rotation := match rotation with Some r => r | None => PyStr "X" end in
  let wires := Wires wires in
  _ <- check_shape features [List.length wires]
         ("'features' must be of shape " ++ str_shape [List.length wires]
          ++ " or smaller; got " ++ str_shape (get_shape features) ++ ".") ;;
  check_type rotation [str]
    ("'rotation' must be a string; got " ++ py_str rotation) ;;
  check_is_in_options rotation [PyStr "X"; PyStr "Y"; PyStr "Z"]
    ("did not recognize option " ++ py_str rotation ++ " for 'rotation'.") ;;
  if py_eq rotation (PyStr "X") then
    _broadcast_no_shape_check RX single wires features
  else if py_eq rotation (PyStr "Y") then
    _broadcast_no_shape_check RY single wires features
  else if py_eq rotation (PyStr "Z") then
    _broadcast_no_shape_check RZ single wires features
  else ret tt.

End Angle.

(** Modelled from the spec: [broadcast(unitary, pattern, wires, parameters)]
    of [templates/broadcast.py], which is not among the sources: maps a
    sequence of operation parameters onto a sequence of wires according to
    the pattern -- for ["single"], pairwise and in order -- and performs a
    strict length-match check, raising the parameter-count error for
    unitaries on a mismatch.  The spec has the pairwise operations produced
    also when that error is raised and swallowed, so the unitaries are
    queued before the check raises.  The message is the text
    [_broadcast_no_shape_check] looks for. *)
Definition broadcast : broadcast_t :=
  fun unitary pattern wires parameters =>
    match pattern with
    | single =>
        for_each (combine wires parameters)
                 (fun wp => construct unitary (snd wp) (fst wp)) ;;
        if negb (Nat.eqb (List.length parameters) (List.length wires)) then
          raise (Exc ValueError
                     ("must contain entries for "
                      ++ str_nat (List.length wires) ++ " unitaries"))
        else ret tt
    end.

(** The gate class selected by a rotation axis. *)
Definition gate_of_axis (rotation : pyval) : option Gate :=
  if py_eq rotation (PyStr "X") then Some RX
  else if py_eq rotation (PyStr "Y") then Some RY
  else if py_eq rotation (PyStr "Z") then Some RZ
  else None.

(** The operations of [unitary] on paired wires and angles, in order. *)
Definition rotations (unitary : Gate) (wires : list wire_id) (angles : list Q)
  : list Operation :=
  map (fun wp => Op unitary (snd wp) (fst wp)) (combine wires angles).

(** [needle] occurs in [hay] as a contiguous block. *)
Definition occurs_in (needle hay : string) : Prop :=
  exists pre post : string, hay = (pre ++ needle ++ post)%string.

(** The message fragment of the parameter-count error for [n] unitaries. *)
Definition count_mismatch_msg (n : nat) : string :=
  ("must contain entries for " ++ str_nat n ++ " unitaries")%string.

(** The inputs of the documented example: angles 0.1 and 0.2, wires 0, 1, 2. *)
Definition features_ex : list Q := [1 # 10; 2 # 10]%Q.
Definition wires_ex : list wire_id := [WInt 0; WInt 1; WInt 2].

(** A broadcast primitive that queues the unitary on the first wire and
    then raises [e]; it exercises the handling of errors other than the
    parameter-count one. *)
Definition failing_broadcast (e : exception) : broadcast_t :=
  fun unitary pattern wires parameters =>
    match wires, parameters with
    | w :: _, par :: _ => construct unitary par w ;; raise e
    | _, _ => raise e
    end.

(** The errors of the input checks of [AngleEmbedding], for [n] wires, [N]
    features and a given [rotation]. *)
Definition shape_error (n N : nat) : exception :=
  Exc ValueError ("'features' must be of shape (" ++ str_nat n
                  ++ ",) or smaller; got (" ++ str_nat N ++ ",).").

Definition rotation_type_error (rotation : pyval) : exception :=
  Exc TypeError ("'rotation' must be a string; got " ++ py_str rotation).

Definition rotation_option_error (rotation : pyval) : exception :=
  Exc ValueError ("did not recognize option " ++ py_str rotation
                  ++ " for 'rotation'.").


(** A collection of two integer-valued units without [interface] attribute,
    and the same collection bound to the torch interface. *)
Definition bare_collection : QNodeCollection Z Z :=
  {| class_name := "QNodeCollection";
     interface_attr := None;
     qnodes := [fun p => (p + 1)%Z; fun p => (2 * p)%Z] |}.


(** Summation of integer results, standing for every backend primitive. *)
Definition sum_Z (f : sum_func) (vs : list Z) : Z := fold_right Z.add 0%Z vs.

(** * Properties *)

(** ** Strings and Python equality *)

Lemma py_eq_str (v : pyval) (s : string) :
  py_eq v (PyStr s) = true <-> v = PyStr s.
Proof.
  destruct v as [ | b | z | t]; simpl; split; intro H;
    try discriminate; try (inversion H; fail).
  - apply String.eqb_eq in H. now subst.
  - inversion H. apply String.eqb_refl.
Qed.

Lemma py_eq_str_false (v : pyval) (s : string) :
  v <> PyStr s -> py_eq v (PyStr s) = false.
Proof.
  intro H. destruct (py_eq v (PyStr s)) eqn:E; [ | reflexivity].
  apply py_eq_str in E. contradiction.
Qed.

Lemma is_None_false (v : pyval) : v <> PyNone -> is_None v = false.
Proof. destruct v; simpl; congruence. Qed.

(** ** [_get_sum_func] *)

(** C3: every interface tag is mapped to the summation primitive of its
    backend -- "tf" to tensorflow's reduce_sum, "torch" to torch's sum,
    "autograd" and "numpy" to the autograd-aware numpy sum, None to plain
    numpy sum -- and every other tag raises ValueError "Unknown interface
    <tag>". *)
Theorem get_sum_func_dispatch :
  _get_sum_func (PyStr "tf") = Returned tf_reduce_sum /\
  _get_sum_func (PyStr "torch") = Returned torch_sum /\
  _get_sum_func (PyStr "autograd") = Returned autograd_numpy_sum /\
  _get_sum_func (PyStr "numpy") = Returned autograd_numpy_sum /\
  _get_sum_func PyNone = Returned numpy_sum /\
  (forall tag : pyval,
      tag <> PyStr "tf" -> tag <> PyStr "torch" ->
      tag <> PyStr "autograd" -> tag <> PyStr "numpy" -> tag <> PyNone ->
      _get_sum_func tag
      = Raised (Exc ValueError ("Unknown interface " ++ py_str tag))).
Proof.
  repeat (split; [reflexivity | ]).
  intros tag Htf Htorch Hauto Hnumpy Hnone.
  unfold _get_sum_func, py_in; simpl existsb.
  rewrite (py_eq_str_false Htf), (py_eq_str_false Htorch),
    (py_eq_str_false Hauto), (py_eq_str_false Hnumpy), (is_None_false Hnone).
  reflexivity.
Qed.

Lemma get_sum_func_dispatch_witness :
  _get_sum_func (PyStr "jax")
  = Raised (Exc ValueError "Unknown interface jax").
Proof.
  apply (proj2 (proj2 (proj2 (proj2 (proj2 get_sum_func_dispatch)))));
    discriminate.
Defined.

(** ** [sum] *)

Section SumProperties.

Variables params value : Type.
Variable call_sum : sum_func -> list value -> value.




End SumProperties.

Section SumOverApply.

Variables params value C : Type.
Variable apply_fn :
  sum_func -> QNodeCollection params value -> Run (evaluation params) C.



End SumOverApply.





(** C9: for a collection object without [interface] attribute, [sum x]
    raises AttributeError: [x.interface] is read directly, although
    [getattr(x, "interface", None)] yields None there, for which
    [_get_sum_func] would return the plain numpy sum. *)
Theorem sum_without_interface_attribute :
  forall (params value : Type) (call_sum : sum_func -> list value -> value)
         (x : QNodeCollection params value),
    interface_attr x = None ->
    sum call_sum x
    = ([], Raised (Exc AttributeError
                       ("'" ++ class_name x
                        ++ "' object has no attribute 'interface'"))) /\
    getattr_interface x PyNone = PyNone /\
    _get_sum_func (getattr_interface x PyNone) = Returned numpy_sum.
Proof.
  intros params value call_sum x Hattr.
  unfold sum, dot_interface, getattr_interface. rewrite Hattr.
  repeat split.
Qed.

Lemma sum_without_interface_attribute_witness :
  sum sum_Z bare_collection
  = ([], Raised (Exc AttributeError
                     "'QNodeCollection' object has no attribute 'interface'")) /\
  getattr_interface bare_collection PyNone = PyNone /\
  _get_sum_func (getattr_interface bare_collection PyNone) = Returned numpy_sum.
Proof.
  exact (sum_without_interface_attribute sum_Z bare_collection eq_refl).
Defined.

(** ** The [Run] monad *)

Lemma bind_ret_l {E A B} (a : A) (k : A -> Run E B) : bind (ret a) k = k a.
Proof. unfold bind, ret. destruct (k a); reflexivity. Qed.

Lemma bind_raise_l {E A B} (e : exception) (k : A -> Run E B) :
  bind (raise e) k = raise e.
Proof. reflexivity. Qed.

Lemma for_each_construct (unitary : Gate) (pairs : list (wire_id * Q)) :
  for_each pairs (fun wp => construct unitary (snd wp) (fst wp))
  = (map (fun wp => Op unitary (snd wp) (fst wp)) pairs, Returned tt).
Proof.
  induction pairs as [ | wp rest IH]; [reflexivity | ].
  simpl. rewrite IH. reflexivity.
Qed.

(** ** Substrings *)

Lemma append_assoc (a b c : string) :
  ((a ++ b) ++ c)%string = (a ++ (b ++ c))%string.
Proof. induction a as [ | ch a IH]; simpl; [ | rewrite IH]; reflexivity. Qed.

Lemma prefix_append (needle post : string) :
  String.prefix needle (needle ++ post) = true.
Proof.
  induction needle as [ | ch needle IH]; simpl.
  - destruct post; reflexivity.
  - destruct (ascii_dec ch ch); [exact IH | congruence].
Qed.

Lemma prefix_split (needle : string) :
  forall hay, String.prefix needle hay = true ->
              exists post, hay = (needle ++ post)%string.
Proof.
  induction needle as [ | ch needle IH]; intros hay H.
  - exists hay. reflexivity.
  - destruct hay as [ | ch' hay]; simpl in H; [discriminate | ].
    destruct (ascii_dec ch ch') as [-> | ]; [ | discriminate].
    destruct (IH hay H) as [post ->]. exists post. reflexivity.
Qed.

Lemma str_contains_eq (needle hay : string) :
  str_contains needle hay
  = if String.prefix needle hay then true
    else match hay with
         | EmptyString => false
         | String _ rest => str_contains needle rest
         end.
Proof. destruct hay; reflexivity. Qed.

Lemma str_contains_occurs (needle hay : string) :
  str_contains needle hay = true <-> occurs_in needle hay.
Proof.
  split.
  - induction hay as [ | ch hay IH]; rewrite str_contains_eq;
      destruct (String.prefix needle _) eqn:P; intro H;
      try (destruct (prefix_split _ _ P) as [post Hpost];
           exists "", post; exact Hpost).
    + discriminate.
    + destruct (IH H) as (pre & post & ->).
      exists (String ch pre), post. reflexivity.
  - intros (pre & post & ->).
    induction pre as [ | ch pre IH].
    + rewrite str_contains_eq. simpl append. now rewrite prefix_append.
    + change (String ch pre ++ needle ++ post)%string
        with (String ch (pre ++ needle ++ post)%string).
      rewrite str_contains_eq, IH. now destruct (String.prefix needle _).
Qed.

Lemma append_empty_r (a : string) : (a ++ "")%string = a.
Proof. induction a as [ | ch a IH]; simpl; [ | rewrite IH]; reflexivity. Qed.

Lemma occurs_in_refl (a : string) : occurs_in a a.
Proof. exists "", "". simpl. now rewrite append_empty_r. Qed.

(** ** [_broadcast_no_shape_check] *)

Section BroadcastRelaxation.

Variable bc : broadcast_t.
Variables (unitary : Gate) (wires : list wire_id) (parameters : list Q).

Lemma no_shape_check_eq :
  _broadcast_no_shape_check bc unitary single wires parameters
  = try_except
      (bc unitary single wires parameters) is_ValueError
      (fun e =>
         if negb (str_contains (count_mismatch_msg (List.length wires))
                               (exc_str e))
         then raise e else ret tt).
Proof. reflexivity. Qed.

Lemma no_shape_check_returned (tr : list Operation) :
  bc unitary single wires parameters = (tr, Returned tt) ->
  _broadcast_no_shape_check bc unitary single wires parameters
  = (tr, Returned tt).
Proof.
  intro H. rewrite no_shape_check_eq, H. reflexivity.
Qed.

Lemma no_shape_check_swallows (tr : list Operation) (e : exception) :
  bc unitary single wires parameters = (tr, Raised e) ->
  exc_type e = ValueError ->
  occurs_in (count_mismatch_msg (List.length wires)) (exc_str e) ->
  _broadcast_no_shape_check bc unitary single wires parameters
  = (tr, Returned tt).
Proof.
  intros H Hcls Hmsg. apply str_contains_occurs in Hmsg.
  rewrite no_shape_check_eq, H. unfold try_except.
  rewrite Hcls, Hmsg. cbn. now rewrite app_nil_r.
Qed.

Lemma no_shape_check_propagates (tr : list Operation) (e : exception) :
  bc unitary single wires parameters = (tr, Raised e) ->
  ~ (exc_type e = ValueError /\
     occurs_in (count_mismatch_msg (List.length wires)) (exc_str e)) ->
  _broadcast_no_shape_check bc unitary single wires parameters
  = (tr, Raised e).
Proof.
  intros H Hnot. rewrite no_shape_check_eq, H. unfold try_except.
  destruct (exc_type e) eqn:Hcls; cbn [is_ValueError]; try reflexivity.
  destruct (str_contains (count_mismatch_msg (List.length wires)) (exc_str e))
    eqn:Hc.
  - exfalso. apply Hnot. split; [reflexivity | ].
    now apply str_contains_occurs.
  - cbn. now rewrite app_nil_r.
Qed.

(** Whatever the primitive does, the relaxation queues nothing of its own:
    the operations are those the primitive queued before returning or
    raising. *)
Lemma no_shape_check_events :
  events (_broadcast_no_shape_check bc unitary single wires parameters)
  = events (bc unitary single wires parameters).
Proof.
  rewrite no_shape_check_eq. unfold try_except.
  destruct (bc unitary single wires parameters) as [tr [[] | e]];
    [reflexivity | ].
  destruct (is_ValueError (exc_type e)); [ | reflexivity].
  destruct (negb _); cbn; now rewrite app_nil_r.
Qed.

End BroadcastRelaxation.

(** ** [AngleEmbedding]: the input checks *)

Lemma shape_message (n : nat) (inpt : list Q) :
  ("'features' must be of shape " ++ str_shape [n]
   ++ " or smaller; got " ++ str_shape (get_shape inpt) ++ ".")%string
  = exc_str (shape_error n (List.length inpt)).
Proof.
  unfold get_shape, shape_error, str_shape. cbn [exc_str].
  cbn [append]. rewrite !append_assoc. cbn [append]. reflexivity.
Qed.

Lemma py_in_axes (rotation : pyval) :
  py_in rotation [PyStr "X"; PyStr "Y"; PyStr "Z"]
  = match gate_of_axis rotation with Some _ => true | None => false end.
Proof.
  unfold py_in, gate_of_axis. cbn [existsb].
  destruct (py_eq rotation (PyStr "X")), (py_eq rotation (PyStr "Y")),
    (py_eq rotation (PyStr "Z")); reflexivity.
Qed.

Lemma gate_of_axis_str (rotation : pyval) (g : Gate) :
  gate_of_axis rotation = Some g -> isinstance rotation str = true.
Proof.
  destruct rotation; try reflexivity; discriminate.
Qed.

(** The body of [AngleEmbedding] as a decision list: the three checks in
    their order, then the relaxed broadcast of the selected gate. *)
Lemma AngleEmbedding_eq (bc : broadcast_t) (features : list Q)
      (wires : list wire_id) (rotation : pyval) :
  AngleEmbedding bc features wires (Some rotation)
  = if Nat.leb (List.length features) (List.length wires) then
      if isinstance rotation str then
        match gate_of_axis rotation with
        | Some g => _broadcast_no_shape_check bc g single wires features
        | None => ([], Raised (rotation_option_error rotation))
        end
      else ([], Raised (rotation_type_error rotation))
    else ([], Raised (shape_error (List.length wires) (List.length features))).
Proof.
  unfold AngleEmbedding, Wires, check_shape, within_max, check_type,
    check_is_in_options.
  cbn [get_shape existsb].
  destruct (Nat.leb (List.length features) (List.length wires)).
  - rewrite bind_ret_l, orb_false_r.
    destruct (isinstance rotation str); [ | reflexivity].
    rewrite bind_ret_l, py_in_axes. unfold gate_of_axis.
    destruct (py_eq rotation (PyStr "X")); [now rewrite bind_ret_l | ].
    destruct (py_eq rotation (PyStr "Y")); [now rewrite bind_ret_l | ].
    destruct (py_eq rotation (PyStr "Z")); [now rewrite bind_ret_l | ].
    reflexivity.
  - rewrite bind_raise_l. unfold raise. do 2 f_equal.
    unfold shape_error. f_equal.
    exact (shape_message (List.length wires) features).
Qed.

Lemma default_rotation (bc : broadcast_t) (features : list Q)
      (wires : list wire_id) :
  AngleEmbedding bc features wires None
  = AngleEmbedding bc features wires (Some (PyStr "X")).
Proof. reflexivity. Qed.

Lemma AngleEmbedding_shape_error (bc : broadcast_t) (features : list Q)
      (wires : list wire_id) (rotation : option pyval) :
  (List.length wires < List.length features)%nat ->
  AngleEmbedding bc features wires rotation
  = ([], Raised (shape_error (List.length wires) (List.length features))).
Proof.
  intro Hlen. destruct rotation as [r | ];
    [ | rewrite default_rotation]; rewrite AngleEmbedding_eq;
    (destruct (Nat.leb_spec (List.length features) (List.length wires));
     [lia | reflexivity]).
Qed.

Lemma AngleEmbedding_checked (bc : broadcast_t) (features : list Q)
      (wires : list wire_id) (rotation : pyval) (g : Gate) :
  (List.length features <= List.length wires)%nat ->
  gate_of_axis rotation = Some g ->
  AngleEmbedding bc features wires (Some rotation)
  = _broadcast_no_shape_check bc g single wires features.
Proof.
  intros Hlen Hg. rewrite AngleEmbedding_eq.
  apply Nat.leb_le in Hlen. rewrite Hlen, (gate_of_axis_str _ Hg), Hg.
  reflexivity.
Qed.

(** C2: with more features than wires the call raises the shape error, a
    ValueError whose message states the maximal shape [(len(wires),)] and
    the shape of the features, and no operation is queued; this holds for
    every rotation argument, given or omitted. *)
Theorem too_many_features_shape_error :
  forall (bc : broadcast_t) (features : list Q) (wires : list wire_id)
         (rotation : option pyval),
    unique wires = true ->
    (List.length wires < List.length features)%nat ->
    AngleEmbedding bc features wires rotation
    = ([], Raised (Exc ValueError
                       ("'features' must be of shape ("
                        ++ str_nat (List.length wires)
                        ++ ",) or smaller; got ("
                        ++ str_nat (List.length features) ++ ",)."))).
Proof.
  intros bc features wires rotation _ Hlen.
  now apply AngleEmbedding_shape_error.
Qed.

Lemma too_many_features_shape_error_witness :
  AngleEmbedding broadcast [1 # 10; 2 # 10; 3 # 10]%Q [WInt 0; WStr "aux"]
                 (Some (PyStr "Z"))
  = ([], Raised (Exc ValueError
                     "'features' must be of shape (2,) or smaller; got (3,).")).
Proof.
  apply (too_many_features_shape_error broadcast
           [1 # 10; 2 # 10; 3 # 10]%Q [WInt 0; WStr "aux"] (Some (PyStr "Z")));
    [reflexivity | simpl; lia].
Defined.

(** C4: the checks run in the order shape, type, membership, each before
    any operation is queued: a failing shape check decides the outcome
    whatever the rotation is, a failing type check decides it before the
    membership check, and in all three cases nothing has been queued; the
    broadcast primitive is reached only when all three checks pass. *)
Theorem validation_precedes_emission :
  forall (bc : broadcast_t) (features : list Q) (wires : list wire_id)
         (rotation : pyval),
    unique wires = true ->
    let run := AngleEmbedding bc features wires (Some rotation) in
    let shape_ok := Nat.leb (List.length features) (List.length wires) in
    let type_ok := isinstance rotation str in
    let option_ok := py_in rotation [PyStr "X"; PyStr "Y"; PyStr "Z"] in
    (shape_ok = false ->
     run = ([], Raised (shape_error (List.length wires) (List.length features))))
    /\
    (shape_ok = true -> type_ok = false ->
     run = ([], Raised (rotation_type_error rotation)))
    /\
    (shape_ok = true -> type_ok = true -> option_ok = false ->
     run = ([], Raised (rotation_option_error rotation)))
    /\
    (shape_ok = true -> type_ok = true -> option_ok = true ->
     exists g, gate_of_axis rotation = Some g /\
               run = _broadcast_no_shape_check bc g single wires features).
Proof.
  intros bc features wires rotation _ run shape_ok type_ok option_ok.
  subst run shape_ok type_ok option_ok.
  rewrite AngleEmbedding_eq, py_in_axes.
  repeat split.
  - intros ->. reflexivity.
  - intros -> ->. reflexivity.
  - intros -> ->. destruct (gate_of_axis rotation); [discriminate | reflexivity].
  - intros -> ->. destruct (gate_of_axis rotation) as [g | ]; [ | discriminate].
    intros _. exists g. split; reflexivity.
Qed.

Lemma validation_precedes_emission_witness :
  AngleEmbedding broadcast features_ex [WInt 0] (Some (PyInt 7))
  = ([], Raised (shape_error 1 2)) /\
  AngleEmbedding broadcast features_ex wires_ex (Some (PyInt 7))
  = ([], Raised (rotation_type_error (PyInt 7))) /\
  AngleEmbedding broadcast features_ex wires_ex (Some (PyStr "W"))
  = ([], Raised (rotation_option_error (PyStr "W"))) /\
  exists g, gate_of_axis (PyStr "Z") = Some g /\
            AngleEmbedding broadcast features_ex wires_ex (Some (PyStr "Z"))
            = _broadcast_no_shape_check broadcast g single wires_ex features_ex.
Proof.
  split; [ | split; [ | split]].
  - apply (validation_precedes_emission broadcast features_ex [WInt 0]
             (PyInt 7)); reflexivity.
  - apply (validation_precedes_emission broadcast features_ex wires_ex
             (PyInt 7)); reflexivity.
  - apply (validation_precedes_emission broadcast features_ex wires_ex
             (PyStr "W")); reflexivity.
  - apply (validation_precedes_emission broadcast features_ex wires_ex
             (PyStr "Z")); reflexivity.
Defined.

(** C5, as stated, fails: with two features on one wire a non-string
    rotation is not reported by a TypeError, because the shape check comes
    first and raises its ValueError. *)
Lemma non_string_rotation_behind_shape_check :
  AngleEmbedding broadcast [1 # 2; 1 # 3]%Q [WInt 0] (Some (PyInt 5))
  = ([], Raised (Exc ValueError
                     "'features' must be of shape (1,) or smaller; got (2,)."))
  /\
  ~ (forall (features : list Q) (wires : list wire_id) (rotation : pyval),
        unique wires = true ->
        isinstance rotation str = false ->
        exists msg,
          result (AngleEmbedding broadcast features wires (Some rotation))
          = Raised (Exc TypeError msg)).
Proof.
  split; [reflexivity | ].
  intro H.
  destruct (H [1 # 2; 1 # 3]%Q [WInt 0] (PyInt 5) eq_refl eq_refl) as [msg Hmsg].
  discriminate Hmsg.
Qed.

(** C5, amended: when the features pass the shape check, a non-string
    rotation raises the TypeError -- although it also fails the membership
    check, which comes later -- and a string outside "X", "Y", "Z" raises
    the invalid-option ValueError; nothing is queued in either case. *)
Theorem rotation_checks_within_shape_bound :
  forall (bc : broadcast_t) (features : list Q) (wires : list wire_id)
         (rotation : pyval),
    unique wires = true ->
    (List.length features <= List.length wires)%nat ->
    (isinstance rotation str = false ->
     py_in rotation [PyStr "X"; PyStr "Y"; PyStr "Z"] = false /\
     AngleEmbedding bc features wires (Some rotation)
     = ([], Raised (Exc TypeError
                        ("'rotation' must be a string; got "
                         ++ py_str rotation))))
    /\
    (isinstance rotation str = true ->
     py_in rotation [PyStr "X"; PyStr "Y"; PyStr "Z"] = false ->
     AngleEmbedding bc features wires (Some rotation)
     = ([], Raised (Exc ValueError
                        ("did not recognize option " ++ py_str rotation
                         ++ " for 'rotation'.")))).
Proof.
  intros bc features wires rotation _ Hlen.
  apply Nat.leb_le in Hlen.
  rewrite AngleEmbedding_eq, Hlen, py_in_axes. split.
  - intros Hstr. rewrite Hstr. split; [ | reflexivity].
    destruct (gate_of_axis rotation) as [g | ] eqn:Hg; [ | reflexivity].
    apply gate_of_axis_str in Hg. congruence.
  - intros -> Hopt.
    destruct (gate_of_axis rotation); [discriminate | reflexivity].
Qed.

Lemma rotation_checks_within_shape_bound_witness :
  (py_in (PyBool true) [PyStr "X"; PyStr "Y"; PyStr "Z"] = false /\
   AngleEmbedding broadcast features_ex wires_ex (Some (PyBool true))
   = ([], Raised (Exc TypeError "'rotation' must be a string; got True")))
  /\
  AngleEmbedding broadcast features_ex wires_ex (Some (PyStr "x"))
  = ([], Raised (Exc ValueError "did not recognize option x for 'rotation'.")).
Proof.
  split.
  - apply (rotation_checks_within_shape_bound broadcast features_ex wires_ex
             (PyBool true)); [reflexivity | simpl; lia | reflexivity].
  - apply (rotation_checks_within_shape_bound broadcast features_ex wires_ex
             (PyStr "x")); [reflexivity | simpl; lia | reflexivity | reflexivity].
Defined.

(** ** [AngleEmbedding]: errors of the broadcast primitive *)

(** C8: when the broadcast primitive raises [e] after queuing [tr], the
    call returns normally exactly when [e] is a ValueError whose message
    contains "must contain entries for <len(wires)> unitaries"; any other
    error reaches the caller as the same exception; in both cases the
    operations queued are those the primitive had queued. *)
Theorem broadcast_error_swallowed_iff_count_mismatch :
  forall (bc : broadcast_t) (features : list Q) (wires : list wire_id)
         (rotation : pyval) (g : Gate) (tr : list Operation) (e : exception),
    unique wires = true ->
    (List.length features <= List.length wires)%nat ->
    gate_of_axis rotation = Some g ->
    bc g single wires features = (tr, Raised e) ->
    let run := AngleEmbedding bc features wires (Some rotation) in
    let count_mismatch :=
      exc_type e = ValueError /\
      occurs_in (count_mismatch_msg (List.length wires)) (exc_str e) in
    (run = (tr, Returned tt) <-> count_mismatch) /\
    (run = (tr, Raised e) <-> ~ count_mismatch).
Proof.
  intros bc features wires rotation g tr e _ Hlen Hg Hbc run count_mismatch.
  subst run. rewrite (@AngleEmbedding_checked bc _ _ _ _ Hlen Hg).
  assert (Hdec : count_mismatch \/ ~ count_mismatch).
  { subst count_mismatch.
    destruct (exc_type e) eqn:Hcls;
      try (right; intros [Hc _]; discriminate Hc).
    destruct (str_contains (count_mismatch_msg (List.length wires)) (exc_str e))
      eqn:Hc.
    - left. split; [reflexivity | now apply str_contains_occurs].
    - right. intros [_ Hoc]. apply str_contains_occurs in Hoc. congruence. }
  destruct Hdec as [Hyes | Hno].
  - destruct Hyes as [Hcls Hmsg].
    rewrite (@no_shape_check_swallows bc g wires features tr e Hbc Hcls Hmsg).
    split; split.
    + intros _. exact (conj Hcls Hmsg).
    + reflexivity.
    + discriminate.
    + intro Hn. exfalso. apply Hn. exact (conj Hcls Hmsg).
  - rewrite (@no_shape_check_propagates bc g wires features tr e Hbc Hno).
    split; split.
    + discriminate.
    + intro Hc. contradiction.
    + intros _. exact Hno.
    + reflexivity.
Qed.

Lemma broadcast_error_swallowed_iff_count_mismatch_witness :
  AngleEmbedding (failing_broadcast (Exc ValueError "wires must be unique"))
                 features_ex wires_ex (Some (PyStr "Y"))
  = ([Op RY (1 # 10) (WInt 0)],
     Raised (Exc ValueError "wires must be unique")).
Proof.
  apply (@broadcast_error_swallowed_iff_count_mismatch
           (failing_broadcast (Exc ValueError "wires must be unique"))
           features_ex wires_ex (PyStr "Y") RY
           [Op RY (1 # 10) (WInt 0)]
           (Exc ValueError "wires must be unique"));
    [reflexivity | simpl; lia | reflexivity | reflexivity | ].
  intros [_ Hoc]. apply str_contains_occurs in Hoc. discriminate Hoc.
Defined.

(** ** [AngleEmbedding] over the broadcast primitive *)

Lemma broadcast_mismatch (unitary : Gate) (wires : list wire_id)
      (parameters : list Q) :
  List.length parameters <> List.length wires ->
  broadcast unitary single wires parameters
  = (rotations unitary wires parameters,
     Raised (Exc ValueError (count_mismatch_msg (List.length wires)))).
Proof.
  intro Hne. unfold broadcast. rewrite for_each_construct.
  apply Nat.eqb_neq in Hne. rewrite Hne. cbn. now rewrite app_nil_r.
Qed.

Lemma broadcast_matching (unitary : Gate) (wires : list wire_id)
      (parameters : list Q) :
  List.length parameters = List.length wires ->
  broadcast unitary single wires parameters
  = (rotations unitary wires parameters, Returned tt).
Proof.
  intro Heq. unfold broadcast. rewrite for_each_construct.
  apply Nat.eqb_eq in Heq. rewrite Heq. cbn. now rewrite app_nil_r.
Qed.

Lemma rotations_length (unitary : Gate) (wires : list wire_id)
      (angles : list Q) :
  (List.length angles <= List.length wires)%nat ->
  List.length (rotations unitary wires angles) = List.length angles.
Proof.
  intro Hle. unfold rotations. rewrite length_map, length_combine. lia.
Qed.

Lemma rotations_gate (unitary : Gate) (wires : list wire_id) (angles : list Q) :
  Forall (fun op => gate op = unitary) (rotations unitary wires angles).
Proof.
  unfold rotations. apply Forall_map, Forall_forall. reflexivity.
Qed.

Lemma rotations_firstn (unitary : Gate) (wires : list wire_id) :
  forall angles,
    rotations unitary (firstn (List.length angles) wires) angles
    = rotations unitary wires angles.
Proof.
  unfold rotations.
  induction wires as [ | w ws IH]; intros [ | a angles]; try reflexivity.
  simpl. f_equal. apply IH.
Qed.

Lemma rotations_wires (unitary : Gate) (wires : list wire_id) :
  forall angles,
    map wire (rotations unitary wires angles)
    = firstn (List.length angles) wires.
Proof.
  unfold rotations.
  induction wires as [ | w ws IH]; intros [ | a angles]; try reflexivity.
  simpl. f_equal. apply IH.
Qed.

Lemma rotations_nth (unitary : Gate) (wires : list wire_id) :
  forall angles i w a,
    nth_error wires i = Some w ->
    nth_error angles i = Some a ->
    nth_error (rotations unitary wires angles) i = Some (Op unitary a w).
Proof.
  unfold rotations.
  induction wires as [ | w0 ws IH]; intros angles i w a Hw Ha.
  - destruct i; discriminate.
  - destruct angles as [ | a0 angles]; [destruct i; discriminate | ].
    destruct i as [ | i]; simpl in *.
    + inversion Hw; inversion Ha; subst. reflexivity.
    + now apply IH.
Qed.

Lemma NoDup_app_disjoint {A} (l1 l2 : list A) (x : A) :
  NoDup (l1 ++ l2) -> In x l1 -> In x l2 -> False.
Proof.
  induction l1 as [ | y l1 IH]; intros Hnd H1 H2; [contradiction | ].
  inversion Hnd as [ | ? ? Hnotin Hnd']; subst.
  destruct H1 as [-> | H1].
  - apply Hnotin, in_or_app. now right.
  - now apply IH.
Qed.

Lemma wire_eqb_eq (a b : wire_id) : wire_eqb a b = true <-> a = b.
Proof.
  destruct a as [x | x], b as [y | y]; simpl; split; intro H;
    try discriminate; try (inversion H; fail).
  - apply Z.eqb_eq in H. now subst.
  - inversion H. apply Z.eqb_refl.
  - apply String.eqb_eq in H. now subst.
  - inversion H. apply String.eqb_refl.
Qed.

Lemma unique_NoDup (ws : list wire_id) : unique ws = true -> NoDup ws.
Proof.
  induction ws as [ | w rest IH]; simpl; intro H; constructor.
  - apply andb_true_iff in H. destruct H as [Hw _].
    intro Hin. apply negb_true_iff in Hw.
    assert (existsb (wire_eqb w) rest = true) as Hex; [ | congruence].
    apply existsb_exists. exists w. split; [exact Hin | now apply wire_eqb_eq].
  - apply IH. apply andb_true_iff in H. tauto.
Qed.

Lemma embedding_fewer_features (features : list Q) (wires : list wire_id)
      (rotation : pyval) (g : Gate) :
  (List.length features < List.length wires)%nat ->
  gate_of_axis rotation = Some g ->
  AngleEmbedding broadcast features wires (Some rotation)
  = (rotations g wires features, Returned tt).
Proof.
  intros Hlt Hg.
  rewrite (@AngleEmbedding_checked broadcast features wires rotation g);
    [ | lia | exact Hg].
  eapply no_shape_check_swallows.
  - apply broadcast_mismatch. lia.
  - reflexivity.
  - apply occurs_in_refl.
Qed.

(** With as many features as wires, one rotation of the selected gate is
    queued per wire, its angle the feature at the same position. *)
Lemma equal_lengths_one_rotation_per_wire (features : list Q)
      (wires : list wire_id) (rotation : pyval) (g : Gate) :
  unique wires = true ->
  List.length features = List.length wires ->
  gate_of_axis rotation = Some g ->
  AngleEmbedding broadcast features wires (Some rotation)
  = (rotations g wires features, Returned tt) /\
  List.length (rotations g wires features) = List.length wires /\
  (forall i w, nth_error wires i = Some w ->
               exists a, nth_error features i = Some a /\
                         nth_error (rotations g wires features) i
                         = Some (Op g a w)).
Proof.
  intros _ Heq Hg. split; [ | split].
  - rewrite (@AngleEmbedding_checked broadcast features wires rotation g);
      [ | lia | exact Hg].
    apply no_shape_check_returned, broadcast_matching, Heq.
  - rewrite rotations_length; lia.
  - intros i w Hw.
    assert (Hi : (i < List.length features)%nat).
    { rewrite Heq. apply nth_error_Some. congruence. }
    apply nth_error_Some in Hi.
    destruct (nth_error features i) as [a | ] eqn:Ha; [ | congruence].
    exists a. split; [reflexivity | now apply rotations_nth].
Qed.

(** C1: with fewer features than wires and a valid axis the call returns
    normally; it queues exactly [len(features)] rotations of the selected
    gate, the feature at position [i] on the wire at position [i], that is,
    pairwise on the first [len(features)] wires in order; and none of the
    remaining wires receives an operation. *)
Theorem fewer_features_embedded_on_first_wires :
  forall (features : list Q) (wires : list wire_id) (rotation : pyval)
         (g : Gate),
    unique wires = true ->
    (List.length features < List.length wires)%nat ->
    gate_of_axis rotation = Some g ->
    let run := AngleEmbedding broadcast features wires (Some rotation) in
    result run = Returned tt /\
    events run
    = rotations g (firstn (List.length features) wires) features /\
    List.length (events run) = List.length features /\
    (forall i a, nth_error features i = Some a ->
                 exists w, nth_error wires i = Some w /\
                           nth_error (events run) i = Some (Op g a w)) /\
    (forall w, In w (skipn (List.length features) wires) ->
               ~ In w (map wire (events run))).
Proof.
  intros features wires rotation g Huniq Hlt Hg run. subst run.
  rewrite (embedding_fewer_features _ _ _ Hlt Hg). cbn [events result fst snd].
  split; [reflexivity | split; [ | split; [ | split]]].
  - symmetry. apply rotations_firstn.
  - apply rotations_length. lia.
  - intros i a Ha.
    assert (Hi : (i < List.length wires)%nat).
    { assert (i < List.length features)%nat; [ | lia].
      apply nth_error_Some. congruence. }
    apply nth_error_Some in Hi.
    destruct (nth_error wires i) as [w | ] eqn:Hw; [ | congruence].
    exists w. split; [reflexivity | now apply rotations_nth].
  - intros w Hrest Hfirst. rewrite rotations_wires in Hfirst.
    apply unique_NoDup in Huniq.
    rewrite <- (firstn_skipn (List.length features) wires) in Huniq.
    exact (NoDup_app_disjoint _ _ w Huniq Hfirst Hrest).
Qed.

Lemma fewer_features_embedded_on_first_wires_witness :
  let run := AngleEmbedding broadcast features_ex wires_ex (Some (PyStr "X")) in
  result run = Returned tt /\
  events run = rotations RX (firstn 2 wires_ex) features_ex /\
  List.length (events run) = 2%nat /\
  (forall i a, nth_error features_ex i = Some a ->
               exists w, nth_error wires_ex i = Some w /\
                         nth_error (events run) i = Some (Op RX a w)) /\
  (forall w, In w (skipn 2 wires_ex) -> ~ In w (map wire (events run))).
Proof.
  apply (@fewer_features_embedded_on_first_wires features_ex wires_ex
           (PyStr "X") RX);
    [reflexivity | simpl; lia | reflexivity].
Defined.

(** C7: with as many features as wires and a valid axis the call queues
    exactly one rotation per wire, of the gate selected by the axis, the
    angles being the features in order; and features [0.1, 0.2] on wires
    [0, 1, 2] with rotation "Y" give RY(0.1) on wire 0 and RY(0.2) on wire 1,
    wire 2 receiving nothing. *)
Theorem one_rotation_per_wire_in_order :
  (forall (features : list Q) (wires : list wire_id) (rotation : pyval)
          (g : Gate),
      unique wires = true ->
      List.length features = List.length wires ->
      gate_of_axis rotation = Some g ->
      AngleEmbedding broadcast features wires (Some rotation)
      = (rotations g wires features, Returned tt) /\
      List.length (rotations g wires features) = List.length wires /\
      (forall i w, nth_error wires i = Some w ->
                   exists a, nth_error features i = Some a /\
                             nth_error (rotations g wires features) i
                             = Some (Op g a w)))
  /\
  gate_of_axis (PyStr "X") = Some RX /\
  gate_of_axis (PyStr "Y") = Some RY /\
  gate_of_axis (PyStr "Z") = Some RZ /\
  AngleEmbedding broadcast features_ex wires_ex (Some (PyStr "Y"))
  = ([Op RY (1 # 10) (WInt 0); Op RY (2 # 10) (WInt 1)], Returned tt).
Proof.
  split; [ | split; [ | split; [ | split]]]; try reflexivity.
  intros features wires rotation g.
  apply equal_lengths_one_rotation_per_wire.
Qed.

Lemma one_rotation_per_wire_in_order_witness :
  AngleEmbedding broadcast [1 # 4; 3 # 4]%Q [WStr "a"; WStr "b"]
                 (Some (PyStr "Z"))
  = ([Op RZ (1 # 4) (WStr "a"); Op RZ (3 # 4) (WStr "b")], Returned tt).
Proof.
  apply (proj1 one_rotation_per_wire_in_order
               [1 # 4; 3 # 4]%Q [WStr "a"; WStr "b"] (PyStr "Z") RZ);
    reflexivity.
Defined.

(** C10: a call that omits the rotation is the call with rotation "X",
    whatever the broadcast primitive is: once the features pass the shape
    check it is the relaxed broadcast of the RX gate, and every operation it
    queues is an RX rotation. *)
Theorem omitted_rotation_is_X :
  forall (features : list Q) (wires : list wire_id),
    unique wires = true ->
    (forall bc : broadcast_t,
        AngleEmbedding bc features wires None
        = AngleEmbedding bc features wires (Some (PyStr "X"))) /\
    (forall bc : broadcast_t,
        (List.length features <= List.length wires)%nat ->
        AngleEmbedding bc features wires None
        = _broadcast_no_shape_check bc RX single wires features) /\
    Forall (fun op => gate op = RX)
           (events (AngleEmbedding broadcast features wires None)).
Proof.
  intros features wires Huniq.
  split; [intro bc; apply default_rotation | split].
  { intros bc Hle. rewrite default_rotation.
    now apply AngleEmbedding_checked. }
  rewrite default_rotation.
  destruct (Nat.lt_trichotomy (List.length features) (List.length wires))
    as [Hlt | [Heq | Hgt]].
  - rewrite (@embedding_fewer_features features wires (PyStr "X") RX Hlt eq_refl).
    apply rotations_gate.
  - destruct (@equal_lengths_one_rotation_per_wire features wires (PyStr "X") RX
                Huniq Heq eq_refl) as [-> _].
    apply rotations_gate.
  - rewrite (@AngleEmbedding_shape_error broadcast features wires
               (Some (PyStr "X")) Hgt).
    constructor.
Qed.

Lemma omitted_rotation_is_X_witness :
  (forall bc : broadcast_t,
      AngleEmbedding bc [1 # 10; 2 # 10]%Q [WInt 0; WInt 1] None
      = AngleEmbedding bc [1 # 10; 2 # 10]%Q [WInt 0; WInt 1] (Some (PyStr "X")))
  /\
  (forall bc : broadcast_t,
      (2 <= 2)%nat ->
      AngleEmbedding bc [1 # 10; 2 # 10]%Q [WInt 0; WInt 1] None
      = _broadcast_no_shape_check bc RX single [WInt 0; WInt 1]
                                  [1 # 10; 2 # 10]%Q)
  /\
  Forall (fun op => gate op = RX)
         (events (AngleEmbedding broadcast [1 # 10; 2 # 10]%Q
                                 [WInt 0; WInt 1] None)).
Proof.
  apply (@omitted_rotation_is_X [1 # 10; 2 # 10]%Q [WInt 0; WInt 1]).
  reflexivity.
Defined.

(** * Further properties *)

(** ** [_get_sum_func] and [sum] *)

Lemma get_sum_func_returned (tag : pyval) (f : sum_func) :
  _get_sum_func tag = Returned f ->
  (tag = PyStr "tf" /\ f = tf_reduce_sum) \/
  (tag = PyStr "torch" /\ f = torch_sum) \/
  (tag = PyStr "autograd" /\ f = autograd_numpy_sum) \/
  (tag = PyStr "numpy" /\ f = autograd_numpy_sum) \/
  (tag = PyNone /\ f = numpy_sum).
Proof.
  unfold _get_sum_func, py_in. cbn [existsb].
  destruct (py_eq tag (PyStr "tf")) eqn:Htf.
  { apply py_eq_str in Htf. intro H. inversion H. tauto. }
  destruct (py_eq tag (PyStr "torch")) eqn:Htorch.
  { apply py_eq_str in Htorch. intro H. inversion H. tauto. }
  destruct (py_eq tag (PyStr "autograd")) eqn:Hauto.
  { apply py_eq_str in Hauto. intro H. inversion H. tauto. }
  destruct (py_eq tag (PyStr "numpy")) eqn:Hnumpy.
  { apply py_eq_str in Hnumpy. intro H. inversion H. tauto. }
  cbn [orb]. destruct tag; cbn [is_None]; intro H; try discriminate H.
  inversion H. tauto.
Qed.

(** X1: [_get_sum_func] returns a primitive for exactly five tags, matched
    literally, and the primitive returned identifies the backend: no other
    string, and no boolean or integer, is accepted. *)
Theorem get_sum_func_returns_iff :
  forall (tag : pyval) (f : sum_func),
    _get_sum_func tag = Returned f <->
    (tag = PyStr "tf" /\ f = tf_reduce_sum) \/
    (tag = PyStr "torch" /\ f = torch_sum) \/
    (tag = PyStr "autograd" /\ f = autograd_numpy_sum) \/
    (tag = PyStr "numpy" /\ f = autograd_numpy_sum) \/
    (tag = PyNone /\ f = numpy_sum).
Proof.
  intros tag f. split.
  - apply get_sum_func_returned.
  - intros [[-> ->] | [[-> ->] | [[-> ->] | [[-> ->] | [-> ->]]]]];
      reflexivity.
Qed.

(** X2: an unknown interface tag is reported when [sum x] is built, not
    when the returned function is first called: the call raises the
    ValueError of [_get_sum_func] and no unit has been evaluated. *)
Theorem sum_unknown_interface_fails_eagerly :
  forall (params value : Type) (call_sum : sum_func -> list value -> value)
         (x : QNodeCollection params value) (tag : pyval),
    interface_attr x = Some tag ->
    tag <> PyStr "tf" -> tag <> PyStr "torch" ->
    tag <> PyStr "autograd" -> tag <> PyStr "numpy" -> tag <> PyNone ->
    sum call_sum x
    = ([], Raised (Exc ValueError ("Unknown interface " ++ py_str tag))).
Proof.
  intros params value call_sum x tag Hattr Htf Htorch Hauto Hnumpy Hnone.
  assert (Hfn : _get_sum_func tag
                = Raised (Exc ValueError ("Unknown interface " ++ py_str tag))).
  { unfold _get_sum_func, py_in. cbn [existsb].
    rewrite (py_eq_str_false Htf), (py_eq_str_false Htorch),
      (py_eq_str_false Hauto), (py_eq_str_false Hnumpy), (is_None_false Hnone).
    reflexivity. }
  unfold sum, dot_interface. rewrite Hattr. simpl. rewrite Hfn. reflexivity.
Qed.

Lemma sum_unknown_interface_fails_eagerly_witness :
  sum sum_Z {| class_name := "QNodeCollection";
               interface_attr := Some (PyStr "Torch");
               qnodes := [fun p => (p + 1)%Z] |}
  = ([], Raised (Exc ValueError "Unknown interface Torch")).
Proof.
  apply (@sum_unknown_interface_fails_eagerly Z Z sum_Z
           {| class_name := "QNodeCollection";
              interface_attr := Some (PyStr "Torch");
              qnodes := [fun p => (p + 1)%Z] |} (PyStr "Torch"));
    [reflexivity | discriminate ..].
Defined.

(** X7: [sum x] returns its function exactly when the collection has an
    [interface] attribute whose value is one of "tf", "torch", "autograd",
    "numpy" or None; in every other case it raises while being built. *)
Theorem sum_returns_iff_known_interface :
  forall (params value : Type) (call_sum : sum_func -> list value -> value)
         (x : QNodeCollection params value),
    (exists cost, result (sum call_sum x) = Returned cost) <->
    (exists tag,
        interface_attr x = Some tag /\
        (tag = PyStr "tf" \/ tag = PyStr "torch" \/ tag = PyStr "autograd" \/
         tag = PyStr "numpy" \/ tag = PyNone)).
Proof.
  intros params value call_sum x. unfold sum, dot_interface. split.
  - intros [cost Hcost].
    destruct (interface_attr x) as [tag | ]; [ | discriminate Hcost].
    exists tag. split; [reflexivity | ].
    simpl in Hcost.
    destruct (_get_sum_func tag) as [f | e] eqn:Hf; [ | discriminate Hcost].
    apply get_sum_func_returned in Hf. tauto.
  - intros (tag & -> & Htag).
    destruct Htag as [-> | [-> | [-> | [-> | ->]]]]; eexists; reflexivity.
Qed.

(** ** [_broadcast_no_shape_check] *)

(** X3: the relaxed broadcast is transparent, whatever the primitive does:
    it queues exactly the operations the primitive queued, it leaves a
    normal return untouched, and an exception it raises is the very
    exception the primitive raised. *)
Theorem relaxation_is_transparent :
  forall (bc : broadcast_t) (unitary : Gate) (wires : list wire_id)
         (parameters : list Q),
    let inner := bc unitary single wires parameters in
    let outer := _broadcast_no_shape_check bc unitary single wires parameters in
    events outer = events inner /\
    (forall v, result inner = Returned v -> outer = inner) /\
    (forall e, result outer = Raised e -> result inner = Raised e).
Proof.
  intros bc unitary wires parameters inner outer. subst inner outer.
  rewrite no_shape_check_eq. unfold try_except.
  destruct (bc unitary single wires parameters) as [tr [[] | e]].
  - repeat split; intros; assumption.
  - destruct (is_ValueError (exc_type e)).
    + destruct (negb _); cbn; rewrite app_nil_r;
        repeat split; intros; first [assumption | discriminate].
    + repeat split; intros; first [assumption | discriminate].
Qed.

(** ** [AngleEmbedding] with the broadcast primitive *)

Lemma rotations_in (unitary : Gate) (wires : list wire_id) (angles : list Q)
      (op : Operation) :
  In op (rotations unitary wires angles) ->
  In (wire op) wires /\ In (angle op) angles.
Proof.
  unfold rotations. intro Hin.
  apply in_map_iff in Hin. destruct Hin as ([w a] & <- & Hwa).
  split; [eapply in_combine_l | eapply in_combine_r]; exact Hwa.
Qed.

Lemma gate_of_axis_valid (rotation : pyval) :
  (exists g, gate_of_axis rotation = Some g) <->
  rotation = PyStr "X" \/ rotation = PyStr "Y" \/ rotation = PyStr "Z".
Proof.
  unfold gate_of_axis. split.
  - intros [g Hg].
    destruct (py_eq rotation (PyStr "X")) eqn:HX;
      [left; now apply py_eq_str | ].
    destruct (py_eq rotation (PyStr "Y")) eqn:HY;
      [right; left; now apply py_eq_str | ].
    destruct (py_eq rotation (PyStr "Z")) eqn:HZ;
      [right; right; now apply py_eq_str | discriminate].
  - intros [-> | [-> | ->]]; eexists; reflexivity.
Qed.

(** The operations queued with the broadcast primitive, for every input. *)
Lemma embedding_events (features : list Q) (wires : list wire_id)
      (rotation : pyval) :
  events (AngleEmbedding broadcast features wires (Some rotation))
  = match gate_of_axis rotation with
    | Some g =>
        if Nat.leb (List.length features) (List.length wires)
        then rotations g wires features else []
    | None => []
    end.
Proof.
  rewrite AngleEmbedding_eq.
  destruct (Nat.leb (List.length features) (List.length wires)) eqn:Hle.
  - destruct (gate_of_axis rotation) as [g | ] eqn:Hg.
    + rewrite (gate_of_axis_str _ Hg), no_shape_check_events.
      destruct (Nat.eq_dec (List.length features) (List.length wires))
        as [Heq | Hne].
      * now rewrite broadcast_matching.
      * now rewrite broadcast_mismatch.
    + now destruct (isinstance rotation str).
  - now destruct (gate_of_axis rotation).
Qed.

(** X4: an empty feature vector is accepted on every wire sequence, the
    empty one included: with a valid axis the call returns normally and
    queues nothing. *)
Theorem empty_features_queue_nothing :
  forall (wires : list wire_id) (rotation : pyval),
    unique wires = true ->
    rotation = PyStr "X" \/ rotation = PyStr "Y" \/ rotation = PyStr "Z" ->
    AngleEmbedding broadcast [] wires (Some rotation) = ([], Returned tt).
Proof.
  intros wires rotation Huniq Hvalid.
  apply gate_of_axis_valid in Hvalid. destruct Hvalid as [g Hg].
  destruct wires as [ | w ws].
  - destruct (@equal_lengths_one_rotation_per_wire [] [] rotation g
                eq_refl eq_refl Hg) as [-> _].
    reflexivity.
  - rewrite (@embedding_fewer_features [] (w :: ws) rotation g);
      [reflexivity | simpl; lia | exact Hg].
Qed.

Lemma empty_features_queue_nothing_witness :
  AngleEmbedding broadcast [] [WStr "a"; WStr "b"] (Some (PyStr "Z"))
  = ([], Returned tt).
Proof.
  apply (@empty_features_queue_nothing [WStr "a"; WStr "b"] (PyStr "Z"));
    [reflexivity | right; right; reflexivity].
Defined.

(** X5: whatever the features and the rotation argument are, given or
    omitted, the queued operations stay within the inputs: no wire receives
    two rotations, every rotation acts on one of the given wires with one of
    the given features as its angle, and there are at most [len(wires)] of
    them. *)
Theorem queued_rotations_within_inputs :
  forall (features : list Q) (wires : list wire_id) (rotation : option pyval),
    unique wires = true ->
    let ops := events (AngleEmbedding broadcast features wires rotation) in
    NoDup (map wire ops) /\
    (forall op, In op ops -> In (wire op) wires /\ In (angle op) features) /\
    (List.length ops <= List.length wires)%nat.
Proof.
  intros features wires rotation Huniq ops. subst ops.
  assert (Hev : exists r,
             events (AngleEmbedding broadcast features wires rotation)
             = events (AngleEmbedding broadcast features wires (Some r))).
  { destruct rotation as [r | ]; [exists r; reflexivity | ].
    exists (PyStr "X"). now rewrite default_rotation. }
  destruct Hev as [r ->]. rewrite embedding_events.
  assert (Hnil : NoDup (map wire []) /\
                 (forall op, In op [] ->
                             In (wire op) wires /\ In (angle op) features) /\
                 (List.length (@nil Operation) <= List.length wires)%nat).
  { split; [constructor | split; [intros op [] | simpl; lia]]. }
  destruct (gate_of_axis r) as [g | ]; [ | exact Hnil].
  destruct (Nat.leb (List.length features) (List.length wires)) eqn:Hle;
    [ | exact Hnil].
  apply Nat.leb_le in Hle. split; [ | split].
  - rewrite rotations_wires.
    apply unique_NoDup in Huniq.
    rewrite <- (firstn_skipn (List.length features) wires) in Huniq.
    exact (NoDup_app_remove_r _ _ Huniq).
  - intros op Hin. now apply (rotations_in g).
  - rewrite rotations_length; lia.
Qed.

Lemma queued_rotations_within_inputs_witness :
  let ops := events (AngleEmbedding broadcast [1 # 3; 2 # 3]%Q
                                    [WStr "a"; WInt 7] (Some (PyStr "Z"))) in
  NoDup (map wire ops) /\
  (forall op, In op ops ->
              In (wire op) [WStr "a"; WInt 7] /\
              In (angle op) [1 # 3; 2 # 3]%Q) /\
  (List.length ops <= 2)%nat.
Proof.
  apply (@queued_rotations_within_inputs [1 # 3; 2 # 3]%Q [WStr "a"; WInt 7]
           (Some (PyStr "Z"))).
  reflexivity.
Defined.

(** X6: with the broadcast primitive the call returns normally exactly when
    the inputs pass the three checks -- no more features than wires, and a
    rotation that is "X", "Y" or "Z"; nothing else can make it fail. *)
Theorem embedding_returns_iff_inputs_valid :
  forall (features : list Q) (wires : list wire_id) (rotation : pyval),
    unique wires = true ->
    (result (AngleEmbedding broadcast features wires (Some rotation))
     = Returned tt
     <->
     (List.length features <= List.length wires)%nat /\
     (rotation = PyStr "X" \/ rotation = PyStr "Y" \/ rotation = PyStr "Z")).
Proof.
  intros features wires rotation Huniq.
  rewrite <- gate_of_axis_valid. split.
  - rewrite AngleEmbedding_eq.
    destruct (Nat.leb_spec (List.length features) (List.length wires))
      as [Hle | Hgt]; [ | discriminate].
    destruct (isinstance rotation str); [ | discriminate].
    destruct (gate_of_axis rotation) as [g | ]; [ | discriminate].
    intros _. split; [exact Hle | now exists g].
  - intros [Hle [g Hg]].
    destruct (Nat.eq_dec (List.length features) (List.length wires))
      as [Heq | Hne].
    + destruct (@equal_lengths_one_rotation_per_wire features wires rotation g
                  Huniq Heq Hg) as [-> _].
      reflexivity.
    + rewrite (@embedding_fewer_features features wires rotation g);
        [reflexivity | lia | exact Hg].
Qed.

Lemma embedding_returns_iff_inputs_valid_witness :
  result (AngleEmbedding broadcast [1 # 3]%Q [WInt 0; WInt 1] (Some (PyStr "Y")))
  = Returned tt
  <->
  (1 <= 2)%nat /\
  (PyStr "Y" = PyStr "X" \/ PyStr "Y" = PyStr "Y" \/ PyStr "Y" = PyStr "Z").
Proof.
  apply (@embedding_returns_iff_inputs_valid [1 # 3]%Q [WInt 0; WInt 1]
           (PyStr "Y")).
  reflexivity.
Defined.

(** X8: with as many features as wires and a valid axis, the call returns
    normally having queued one rotation per wire: the rotation at position
    [i] is the gate of the axis on wire [i] with feature [i] as its angle. *)
Theorem matching_lengths_one_rotation_per_wire :
  forall (features : list Q) (wires : list wire_id) (rotation : pyval)
         (g : Gate),
    unique wires = true ->
    List.length features = List.length wires ->
    gate_of_axis rotation = Some g ->
    let run := AngleEmbedding broadcast features wires (Some rotation) in
    result run = Returned tt /\
    List.length (events run) = List.length wires /\
    (forall i w, nth_error wires i = Some w ->
                 exists a, nth_error features i = Some a /\
                           nth_error (events run) i = Some (Op g a w)).
Proof.
  intros features wires rotation g Huniq Hlen Hg run. subst run.
  destruct (@equal_lengths_one_rotation_per_wire features wires rotation g
              Huniq Hlen Hg) as (-> & Hcount & Hnth).
  split; [reflexivity | split; [exact Hcount | exact Hnth]].
Qed.

Lemma matching_lengths_one_rotation_per_wire_witness :
  let run := AngleEmbedding broadcast [1 # 10; 2 # 10]%Q
                            [WInt 0; WStr "aux"] (Some (PyStr "Y")) in
  result run = Returned tt /\
  List.length (events run) = 2%nat /\
  (forall i w, nth_error [WInt 0; WStr "aux"] i = Some w ->
               exists a, nth_error [1 # 10; 2 # 10]%Q i = Some a /\
                         nth_error (events run) i = Some (Op RY a w)).
Proof.
  apply (@matching_lengths_one_rotation_per_wire [1 # 10; 2 # 10]%Q
           [WInt 0; WStr "aux"] (PyStr "Y") RY);
    reflexivity.
Defined.
